(** * The experiment configuration [EndingsSeg_12g90g270g_125mm_DAugAll]

    A shallow embedding of
    [tractseg/experiments/pretrained_models/old/EndingsSeg_12g90g270g_125mm_DAugAll.py]:

    <<
    import os
    from tractseg.experiments.endings_seg import Config as EndingsSegConfig

    class Config(EndingsSegConfig):
        EXP_NAME = os.path.basename(__file__).split(".")[0]

        NUM_EPOCHS = 500
        DATA_AUGMENTATION = True
    >>

    Python strings are [string]s, Python integers are [Z], a class namespace
    is a [gmap string value], and a raised exception is the [Raise] branch of
    [result]. *)

From Stdlib Require Import ZArith Ascii Lia.
From stdpp Require Import gmap strings relations.

Local Open Scope Z_scope.

(** ** Exceptions and results *)

Inductive exn : Type :=
| IndexError
| AttributeError (name : string).

Inductive result (A : Type) : Type :=
| Ok (a : A)
| Raise (e : exn).
Arguments Ok {A} a.
Arguments Raise {A} e.

#[global] Instance result_ret : MRet result := fun A a => Ok a.

#[global] Instance result_bind : MBind result := fun A B k r =>
  match r with
  | Ok a => k a
  | Raise e => Raise e
  end.

(** ** The string operations the file calls *)

Module PyStr.

(** [c in s]. *)
Fixpoint has_char (c : ascii) (s : string) : bool :=
  match s with
  | EmptyString => false
  | String a r => if Ascii.eqb a c then true else has_char c r
  end.

(** [s.count(c)]. *)
Fixpoint count_char (c : ascii) (s : string) : nat :=
  match s with
  | EmptyString => O
  | String a r => if Ascii.eqb a c then S (count_char c r) else count_char c r
  end.

(** [s.rfind(c)]: the highest index holding [c], or [-1]. *)
Fixpoint rfind (c : ascii) (s : string) : Z :=
  match s with
  | EmptyString => -1
  | String a r =>
      let i := rfind c r in
      if 0 <=? i then i + 1
      else if Ascii.eqb a c then 0 else -1
  end.

Fixpoint drop (n : nat) (s : string) : string :=
  match n, s with
  | O, _ => s
  | S _, EmptyString => EmptyString
  | S n', String _ r => drop n' r
  end.

Fixpoint take (n : nat) (s : string) : string :=
  match n, s with
  | O, _ => EmptyString
  | S _, EmptyString => EmptyString
  | S n', String a r => String a (take n' r)
  end.

(** A slice bound, as Python clamps it: negative bounds count from the
    end, and everything is cut to [0 .. len s]. *)
Definition clamp (s : string) (i : Z) : nat :=
  let n := Z.of_nat (String.length s) in
  Z.to_nat (if i <? 0 then Z.max 0 (n + i) else Z.min i n).

(** [s[i:]]. *)
Definition slice_from (s : string) (i : Z) : string :=
  drop (clamp s i) s.

(** [s[:i]]. *)
Definition slice_to (s : string) (i : Z) : string :=
  take (clamp s i) s.

(** [s.split(sep)] for a one-character separator: the maximal pieces
    between occurrences of [sep], empty pieces included. *)
Fixpoint split (sep : ascii) (s : string) : list string :=
  match s with
  | EmptyString => [EmptyString]
  | String a r =>
      if Ascii.eqb a sep then EmptyString :: split sep r
      else match split sep r with
           | h :: t => String a h :: t
           | [] => [String a EmptyString]
           end
  end.

(** [sep.join(xs)]. *)
Fixpoint join (sep : ascii) (xs : list string) : string :=
  match xs with
  | [] => EmptyString
  | [x] => x
  | x :: rest => x +:+ String sep (join sep rest)
  end.

End PyStr.

(** [xs[i]] on a list: negative indices count from the end, anything out
    of range raises [IndexError]. *)
Definition getitem {A : Type} (xs : list A) (i : Z) : result A :=
  let n := Z.of_nat (length xs) in
  let j := if i <? 0 then i + n else i in
  if (0 <=? j) && (j <? n) then
    match xs !! Z.to_nat j with
    | Some x => Ok x
    | None => Raise IndexError
    end
  else Raise IndexError.

(** ** [os.path] (POSIX flavour) *)

Module PosixPath.

Definition sep : ascii := "/"%char.

(** <<
    def basename(p):
        i = p.rfind(sep) + 1
        return p[i:]
    >> *)
Definition basename (p : string) : string :=
  let i := PyStr.rfind sep p + 1 in
  PyStr.slice_from p i.

End PosixPath.

(** ** The right-hand side of [EXP_NAME] *)

Definition dot : ascii := "."%char.

(** [os.path.basename(__file__).split(".")[0]], with [file] the value of
    [__file__]. *)
Definition exp_name_of (file : string) : result string :=
  getitem (PyStr.split dot (PosixPath.basename file)) 0.

(** ** Values, class namespaces and classes *)

(** The values a configuration field can hold.  [VRef] stands for any
    object this file does not build itself (floats, lists, tuples ... of
    the base configuration), identified by its address. *)
Inductive value : Type :=
| VNone
| VBool (b : bool)
| VInt (z : Z)
| VStr (s : string)
| VRef (addr : N).

(** A class is its own namespace and the class it derives from; the
    configuration classes use single inheritance only. *)
Inductive pyclass : Type :=
| Object
| Class (dict : gmap string value) (base : pyclass).

(** Looking a name up along the inheritance chain: the nearest class that
    binds the name wins. *)
Fixpoint class_lookup (c : pyclass) (k : string) : option value :=
  match c with
  | Object => None
  | Class d b =>
      match d !! k with
      | Some v => Some v
      | None => class_lookup b k
      end
  end.

(** [getattr(c, k)]. *)
Definition class_getattr (c : pyclass) (k : string) : result value :=
  match class_lookup c k with
  | Some v => Ok v
  | None => Raise (AttributeError k)
  end.

(** ** The class body, statement by statement *)

(** [EXP_NAME = os.path.basename(__file__).split(".")[0]] *)
Definition stmt_EXP_NAME (file : string) (ns : gmap string value)
  : result (gmap string value) :=
  name ← exp_name_of file;
  mret (<["EXP_NAME" := VStr name]> ns).

(** [NUM_EPOCHS = 500] *)
Definition stmt_NUM_EPOCHS (ns : gmap string value)
  : result (gmap string value) :=
  mret (<["NUM_EPOCHS" := VInt 500]> ns).

(** [DATA_AUGMENTATION = True] *)
Definition stmt_DATA_AUGMENTATION (ns : gmap string value)
  : result (gmap string value) :=
  mret (<["DATA_AUGMENTATION" := VBool true]> ns).

(** The body of [class Config], run on a fresh namespace. *)
Definition class_body (file : string) : result (gmap string value) :=
  ns ← stmt_EXP_NAME file ∅;
  ns ← stmt_NUM_EPOCHS ns;
  stmt_DATA_AUGMENTATION ns.

(** [class Config(EndingsSegConfig): ...].  The base class comes from
    [tractseg.experiments.endings_seg], which is not part of this file, so
    it is an argument. *)
Definition Config (file : string) (EndingsSegConfig : pyclass)
  : result pyclass :=
  d ← class_body file;
  mret (Class d EndingsSegConfig).

(** ** The class statement as the interpreter runs it *)

(** Names that begin with two underscores ([__module__], [__doc__],
    [__qualname__], [__dict__] ...) belong to the interpreter, not to the
    configuration: it binds them itself, or reads them from the type
    object rather than along the inheritance chain. *)
Definition reserved (k : string) : bool := String.prefix "__" k.

(** The namespace the interpreter hands to the class body: [__module__] is
    the [__name__] of the module being run, [__qualname__] the name of the
    class. *)
Definition class_prelude (modname : string) : gmap string value :=
  <["__qualname__" := VStr "Config"]> (<["__module__" := VStr modname]> ∅).

(** [type(name, bases, namespace)]: [__qualname__] moves from the namespace
    to the type object, and a class whose body left [__doc__] unbound gets
    [__doc__ = None]. *)
Definition type_new (d : gmap string value) (base : pyclass) : pyclass :=
  let d := delete "__qualname__" d in
  match d !! "__doc__" with
  | Some _ => Class d base
  | None => Class (<["__doc__" := VNone]> d) base
  end.

(** [class Config(EndingsSegConfig): ...] with the interpreter's own
    entries: the three statements run on the prelude, and [type] makes the
    class from what they leave. *)
Definition class_statement (file modname : string) (EndingsSegConfig : pyclass)
  : result pyclass :=
  d ← stmt_EXP_NAME file (class_prelude modname);
  d ← stmt_NUM_EPOCHS d;
  d ← stmt_DATA_AUGMENTATION d;
  mret (type_new d EndingsSegConfig).

(** ** The class body as a transition system *)

(** Where execution of the class body stands: before one of its three
    statements, or past the last one. *)
Inductive phase : Type :=
| AtEXP_NAME
| AtNUM_EPOCHS
| AtDATA_AUGMENTATION
| Built.

Record state : Type := State { pc : phase; ns : gmap string value }.

Definition initial : state := State AtEXP_NAME ∅.

(** One statement of this file.  There is no step out of [Built]: the file
    has no code after the class body and the class has no methods. *)
Inductive step (file : string) : state -> state -> Prop :=
| step_EXP_NAME d d' :
    stmt_EXP_NAME file d = Ok d' ->
    step file (State AtEXP_NAME d) (State AtNUM_EPOCHS d')
| step_NUM_EPOCHS d d' :
    stmt_NUM_EPOCHS d = Ok d' ->
    step file (State AtNUM_EPOCHS d) (State AtDATA_AUGMENTATION d')
| step_DATA_AUGMENTATION d d' :
    stmt_DATA_AUGMENTATION d = Ok d' ->
    step file (State AtDATA_AUGMENTATION d) (State Built d').

(** The names a phase has still to bind. *)
Definition pending (p : phase) : list string :=
  match p with
  | AtEXP_NAME => ["EXP_NAME"; "NUM_EPOCHS"; "DATA_AUGMENTATION"]
  | AtNUM_EPOCHS => ["NUM_EPOCHS"; "DATA_AUGMENTATION"]
  | AtDATA_AUGMENTATION => ["DATA_AUGMENTATION"]
  | Built => []
  end.

(** No pending name is bound yet. *)
Definition unassigned (s : state) : Prop :=
  Forall (fun k => ns s !! k = None) (pending (pc s)).

(** ** The paths under which this file is loaded *)

Definition stem : string := "EndingsSeg_12g90g270g_125mm_DAugAll".

(** [__file__] of this module: the stem, an extension ([py], [pyc] ...),
    and possibly a directory in front. *)
Inductive defining_file : string -> Prop :=
| defining_bare (ext : string) :
    PyStr.has_char PosixPath.sep ext = false ->
    defining_file (stem +:+ String dot ext)
| defining_in_dir (dir ext : string) :
    PyStr.has_char PosixPath.sep ext = false ->
    defining_file (dir +:+ String PosixPath.sep (stem +:+ String dot ext)).

(** ** Stripping a file extension, as the specification words it *)

(** "Everything up to the last dot of the base name"; a name without a dot
    has no extension and is returned whole. *)
Definition strip_extension (name : string) : string :=
  let i := PyStr.rfind dot name in
  if i <? 0 then name else PyStr.slice_to name i.

(** * Properties *)

(** ** Facts about the string operations *)

Module PyStrFacts.
Import PyStr.

#[local] Arguments String.append !_ _ / : simpl nomatch.

Lemma eqb_refl' (c : ascii) : Ascii.eqb c c = true.
Proof. apply Ascii.eqb_refl. Qed.

Ltac case_eqb a c :=
  destruct (Ascii.eqb_spec a c) as [->|?].

Lemma app_nil_r (s : string) : s +:+ "" = s.
Proof. induction s as [|a s IH]; simpl; congruence. Qed.

Lemma app_assoc (a b c : string) : (a +:+ b) +:+ c = a +:+ (b +:+ c).
Proof. induction a as [|x a IH]; simpl; congruence. Qed.

Lemma has_char_app (c : ascii) (a b : string) :
  has_char c (a +:+ b) = has_char c a || has_char c b.
Proof.
  induction a as [|x a IH]; simpl; [done|].
  by destruct (Ascii.eqb x c).
Qed.

Lemma has_char_count (c : ascii) (s : string) :
  has_char c s = false <-> count_char c s = O.
Proof.
  induction s as [|a s IH]; simpl; [done|].
  destruct (Ascii.eqb a c); [split; discriminate | done].
Qed.

(** [rfind] either reports absence, or cuts the string at an occurrence
    with none after it. *)
Lemma rfind_spec (c : ascii) (s : string) :
  (has_char c s = false /\ rfind c s = -1) \/
  (exists d n, s = d +:+ String c n /\ has_char c n = false /\
               rfind c s = Z.of_nat (String.length d)).
Proof.
  induction s as [|a s IH]; simpl; [by left|].
  destruct IH as [[Hno ->]|(d & n & -> & Hn & ->)].
  - simpl. case_eqb a c.
    + right. by exists "", s.
    + by left.
  - right. exists (String a d), n. split; [done|]. split; [done|].
    destruct (Z.leb_spec 0 (Z.of_nat (String.length d))); simpl; lia.
Qed.

Lemma rfind_absent (c : ascii) (s : string) :
  has_char c s = false -> rfind c s = -1.
Proof.
  destruct (rfind_spec c s) as [[_ ?]|(d & n & -> & _ & _)]; [done|].
  rewrite has_char_app. simpl. rewrite eqb_refl'.
  by destruct (has_char c d).
Qed.

Lemma rfind_last (c : ascii) (d n : string) :
  has_char c n = false ->
  rfind c (d +:+ String c n) = Z.of_nat (String.length d).
Proof.
  intros Hn. induction d as [|a d IH]; simpl.
  - rewrite (rfind_absent _ _ Hn). simpl. by rewrite eqb_refl'.
  - rewrite IH.
    destruct (Z.leb_spec 0 (Z.of_nat (String.length d))); lia.
Qed.

Lemma drop_0 (s : string) : drop 0 s = s.
Proof. by destruct s. Qed.

Lemma drop_app (d r : string) : drop (String.length d) (d +:+ r) = r.
Proof. induction d as [|a d IH]; simpl; [apply drop_0 | exact IH]. Qed.

Lemma take_app (d r : string) : take (String.length d) (d +:+ r) = d.
Proof.
  induction d as [|a d IH]; simpl; [by destruct r | by rewrite IH].
Qed.

Lemma drop_past (c : ascii) (d n : string) :
  drop (S (String.length d)) (d +:+ String c n) = n.
Proof. induction d as [|a d IH]; simpl; [apply drop_0 | exact IH]. Qed.

Lemma count_char_app (c : ascii) (a b : string) :
  count_char c (a +:+ b) = (count_char c a + count_char c b)%nat.
Proof.
  induction a as [|x a IH]; simpl; [done|].
  destruct (Ascii.eqb x c); simpl; by rewrite IH.
Qed.

Lemma length_app (a b : string) :
  String.length (a +:+ b) = (String.length a + String.length b)%nat.
Proof. induction a as [|x a IH]; simpl; [done | by rewrite IH]. Qed.

Lemma clamp_inside (s : string) (n : nat) :
  (n <= String.length s)%nat -> clamp s (Z.of_nat n) = n.
Proof.
  intros Hn. unfold clamp.
  destruct (Z.ltb_spec (Z.of_nat n) 0); lia.
Qed.

(** [split] never yields an empty list: its first piece is the text in
    front of the first separator, or the whole string. *)
Lemma split_spec (c : ascii) (s : string) :
  exists h t, split c s = h :: t /\ has_char c h = false /\
    ((t = [] /\ s = h) \/
     (exists r, s = h +:+ String c r /\ t = split c r)).
Proof.
  induction s as [|a s IH]; simpl.
  - exists "", []. split; [done|]. split; [done|]. by left.
  - destruct IH as (h & t & E & Hh & Hs). case_eqb a c.
    + exists "", (split c s). split; [done|]. split; [done|].
      right. by exists s.
    + exists (String a h), t. rewrite E. split; [done|]. split.
      * simpl. by destruct (Ascii.eqb_spec a c).
      * destruct Hs as [[-> ->]|(r & -> & ->)]; [by left|].
        right. by exists r.
Qed.

Lemma split_length (c : ascii) (s : string) :
  length (split c s) = S (count_char c s).
Proof.
  induction s as [|a s IH]; simpl; [done|].
  destruct (Ascii.eqb a c); simpl; [by rewrite IH|].
  destruct (split c s); simpl in *; [discriminate | done].
Qed.

Lemma split_first (c : ascii) (h r : string) :
  has_char c h = false ->
  split c (h +:+ String c r) = h :: split c r.
Proof.
  induction h as [|a h IH]; simpl.
  - by rewrite eqb_refl'.
  - destruct (Ascii.eqb a c); [discriminate|].
    intros Hh. by rewrite (IH Hh).
Qed.

Lemma split_whole (c : ascii) (h : string) :
  has_char c h = false -> split c h = [h].
Proof.
  induction h as [|a h IH]; simpl; [done|].
  destruct (Ascii.eqb a c); [discriminate|].
  intros Hh. by rewrite (IH Hh).
Qed.

(** Joining the pieces with the separator gives the string back. *)
Lemma join_split (c : ascii) (s : string) : join c (split c s) = s.
Proof.
  induction s as [|a s IH]; simpl; [done|].
  pose proof (split_length c s) as Hlen.
  case_eqb a c.
  - destruct (split c s) as [|h t] eqn:E; [discriminate|].
    change (join c ("" :: h :: t)) with (String c (join c (h :: t))).
    by rewrite IH.
  - destruct (split c s) as [|h t] eqn:E; [discriminate|].
    destruct t as [|h' t]; simpl in *; by rewrite <- IH.
Qed.

End PyStrFacts.

(** ** Facts about [basename], [getitem] and the derived name *)

Section Derivation.
Import PyStr PyStrFacts PosixPath.

#[local] Arguments String.append !_ _ / : simpl nomatch.

Lemma basename_bare (n : string) :
  has_char sep n = false -> basename n = n.
Proof.
  intros Hn. unfold basename, slice_from.
  rewrite (rfind_absent _ _ Hn).
  change (-1 + 1) with (Z.of_nat 0).
  rewrite clamp_inside; [apply drop_0 | lia].
Qed.

Lemma basename_in_dir (d n : string) :
  has_char sep n = false -> basename (d +:+ String sep n) = n.
Proof.
  intros Hn. unfold basename, slice_from.
  rewrite (rfind_last _ _ _ Hn).
  replace (Z.of_nat (String.length d) + 1)
    with (Z.of_nat (S (String.length d))) by lia.
  rewrite clamp_inside; [apply drop_past|].
  rewrite length_app. simpl. lia.
Qed.

(** The base name is what follows the last separator, and holds none. *)
Lemma basename_spec (p : string) :
  has_char sep (basename p) = false /\
  (p = basename p \/ exists d, p = d +:+ String sep (basename p)).
Proof.
  destruct (rfind_spec sep p) as [[Hno _]|(d & n & -> & Hn & _)].
  - rewrite (basename_bare _ Hno). split; [done | by left].
  - rewrite (basename_in_dir _ _ Hn). split; [done|]. right. by exists d.
Qed.

Lemma getitem_head {A : Type} (h : A) (t : list A) :
  getitem (h :: t) 0 = Ok h.
Proof.
  unfold getitem. simpl length.
  change (0 <? 0) with false. cbv iota.
  destruct (Z.ltb_spec 0 (Z.of_nat (S (length t)))); [done | lia].
Qed.

Lemma getitem_empty {A : Type} (i : Z) : getitem (@nil A) i = Raise IndexError.
Proof.
  unfold getitem. simpl length. change (Z.of_nat 0) with 0.
  assert (forall j, (0 <=? j) && (j <? 0) = false) as Hout.
  { intros j. destruct (Z.leb_spec 0 j), (Z.ltb_spec j 0); simpl; try done; lia. }
  by rewrite Hout.
Qed.

(** The derived name is the part of the base name in front of its first
    dot, or the whole base name when it has no dot. *)
Lemma exp_name_of_spec (file : string) :
  exists name rest,
    exp_name_of file = Ok name /\
    basename file = name +:+ rest /\
    has_char dot name = false /\
    (rest = "" \/ exists r, rest = String dot r).
Proof.
  unfold exp_name_of.
  destruct (split_spec dot (basename file)) as (h & t & -> & Hh & Hs).
  rewrite getitem_head.
  destruct Hs as [[_ E]|(r & E & _)].
  - exists h, "". rewrite app_nil_r. repeat split; [done.. | by left].
  - exists h, (String dot r). repeat split; [done..|]. right. by exists r.
Qed.

Lemma exp_name_of_app (d n ext : string) :
  has_char sep n = false -> has_char sep ext = false ->
  has_char dot n = false ->
  exp_name_of (d +:+ String sep (n +:+ String dot ext)) = Ok n.
Proof.
  intros Hn Hext Hdot. unfold exp_name_of.
  rewrite basename_in_dir.
  - rewrite (split_first _ _ _ Hdot). apply getitem_head.
  - rewrite has_char_app, Hn. simpl. exact Hext.
Qed.

Lemma exp_name_of_app_bare (n ext : string) :
  has_char sep n = false -> has_char sep ext = false ->
  has_char dot n = false ->
  exp_name_of (n +:+ String dot ext) = Ok n.
Proof.
  intros Hn Hext Hdot. unfold exp_name_of.
  rewrite basename_bare.
  - rewrite (split_first _ _ _ Hdot). apply getitem_head.
  - rewrite has_char_app, Hn. simpl. exact Hext.
Qed.

End Derivation.

(** ** The class [Config] *)

Section ConfigFacts.
Import PyStr PyStrFacts PosixPath.

(** The namespace the class body leaves behind when the derived name is
    [name]. *)
Lemma class_body_eq (file name : string) :
  exp_name_of file = Ok name ->
  class_body file =
    Ok (<["DATA_AUGMENTATION" := VBool true]>
          (<["NUM_EPOCHS" := VInt 500]>
             (<["EXP_NAME" := VStr name]> ∅))).
Proof. intros E. unfold class_body, stmt_EXP_NAME. by rewrite E. Qed.

Lemma Config_eq (file name : string) (base : pyclass) :
  exp_name_of file = Ok name ->
  Config file base =
    Ok (Class (<["DATA_AUGMENTATION" := VBool true]>
                 (<["NUM_EPOCHS" := VInt 500]>
                    (<["EXP_NAME" := VStr name]> ∅))) base).
Proof. intros E. unfold Config. by rewrite (class_body_eq _ _ E). Qed.

Lemma Config_total (file : string) (base : pyclass) :
  exists name, exp_name_of file = Ok name /\
    Config file base =
      Ok (Class (<["DATA_AUGMENTATION" := VBool true]>
                   (<["NUM_EPOCHS" := VInt 500]>
                      (<["EXP_NAME" := VStr name]> ∅))) base).
Proof.
  destruct (exp_name_of_spec file) as (name & _ & E & _).
  exists name. split; [exact E | by apply Config_eq].
Qed.

Lemma defining_file_name (file : string) :
  defining_file file -> exp_name_of file = Ok stem.
Proof.
  intros [ext Hext|dir ext Hext].
  - by apply exp_name_of_app_bare.
  - by apply exp_name_of_app.
Qed.

(** The class the interpreter builds when the derived name is [name]: the
    three fields, [__module__] and [__doc__]. *)
Lemma class_statement_eq (file modname name : string) (base : pyclass) :
  exp_name_of file = Ok name ->
  class_statement file modname base =
    Ok (Class (<["__doc__" := VNone]>
                 (delete "__qualname__"
                    (<["DATA_AUGMENTATION" := VBool true]>
                       (<["NUM_EPOCHS" := VInt 500]>
                          (<["EXP_NAME" := VStr name]>
                             (class_prelude modname)))))) base).
Proof.
  intros E. unfold class_statement, stmt_EXP_NAME. rewrite E. simpl.
  unfold type_new, class_prelude. simpl.
  by rewrite lookup_delete_ne, !lookup_insert_ne, lookup_empty.
Qed.

Lemma reserved_neq (k r : string) :
  reserved k = false -> reserved r = true -> k ≠ r.
Proof. intros Hk Hr ->. congruence. Qed.

(** Reading a name the interpreter does not own goes past [__module__],
    [__qualname__] and [__doc__]. *)
Lemma lookup_past_reserved (k name modname : string) :
  reserved k = false ->
  (<["__doc__" := VNone]>
     (delete "__qualname__"
        (<["DATA_AUGMENTATION" := VBool true]>
           (<["NUM_EPOCHS" := VInt 500]>
              (<["EXP_NAME" := VStr name]> (class_prelude modname)))))) !! k
  = (<["DATA_AUGMENTATION" := VBool true]>
       (<["NUM_EPOCHS" := VInt 500]>
          (<["EXP_NAME" := VStr name]> (∅ : gmap string value)))) !! k.
Proof.
  intros Hk.
  assert (k ≠ "__doc__") by (by apply reserved_neq).
  assert (k ≠ "__qualname__") by (by apply reserved_neq).
  assert (k ≠ "__module__") by (by apply reserved_neq).
  unfold class_prelude.
  rewrite lookup_insert_ne, lookup_delete_ne by done.
  destruct (decide (k = "DATA_AUGMENTATION")) as [->|];
    [by rewrite !lookup_insert_eq | rewrite !(lookup_insert_ne _ "DATA_AUGMENTATION") by done].
  destruct (decide (k = "NUM_EPOCHS")) as [->|];
    [by rewrite !lookup_insert_eq | rewrite !(lookup_insert_ne _ "NUM_EPOCHS") by done].
  destruct (decide (k = "EXP_NAME")) as [->|];
    [by rewrite !lookup_insert_eq | rewrite !(lookup_insert_ne _ "EXP_NAME") by done].
  by rewrite !lookup_insert_ne, lookup_empty.
Qed.

(** On every name the interpreter does not own, the class it builds reads
    as [Config] does. *)
Lemma class_statement_reads_as_Config
  (file modname : string) (base : pyclass) (k : string) :
  reserved k = false ->
  exists C C', Config file base = Ok C /\
    class_statement file modname base = Ok C' /\
    class_getattr C' k = class_getattr C k.
Proof.
  intros Hk. destruct (Config_total file base) as (name & E & ->).
  do 2 eexists. split; [done|]. split; [by apply class_statement_eq|].
  unfold class_getattr. cbn [class_lookup].
  by rewrite (lookup_past_reserved _ _ _ Hk).
Qed.

End ConfigFacts.

(** ** The fields [Config] sets *)

(** C1: loaded from its own file (the stem
    [EndingsSeg_12g90g270g_125mm_DAugAll], any extension, under any
    directory), the configuration has [EXP_NAME] equal to the string
    "EndingsSeg_12g90g270g_125mm_DAugAll", whatever the base class holds. *)
Theorem EXP_NAME_is_file_stem (file : string) (base : pyclass) :
  defining_file file ->
  exists C, Config file base = Ok C /\
    class_getattr C "EXP_NAME" = Ok (VStr "EndingsSeg_12g90g270g_125mm_DAugAll").
Proof.
  intros Hfile. pose proof (defining_file_name _ Hfile) as E.
  eexists. split; [by apply Config_eq|]. done.
Qed.

Lemma EXP_NAME_is_file_stem_witness :
  defining_file
    "src/tractseg/experiments/pretrained_models/old/EndingsSeg_12g90g270g_125mm_DAugAll.py" /\
  exists C,
    Config
      "src/tractseg/experiments/pretrained_models/old/EndingsSeg_12g90g270g_125mm_DAugAll.py"
      (Class {[ "EXP_NAME" := VStr "EndingsSeg" ]} Object) = Ok C /\
    class_getattr C "EXP_NAME" = Ok (VStr "EndingsSeg_12g90g270g_125mm_DAugAll").
Proof.
  assert (defining_file
    "src/tractseg/experiments/pretrained_models/old/EndingsSeg_12g90g270g_125mm_DAugAll.py")
    as Hfile.
  { apply (defining_in_dir "src/tractseg/experiments/pretrained_models/old" "py").
    reflexivity. }
  split; [exact Hfile|].
  exact (EXP_NAME_is_file_stem _ _ Hfile).
Defined.

(** C3: the configuration has [NUM_EPOCHS] equal to the integer 500, for
    every defining path and every base class. *)
Theorem NUM_EPOCHS_is_500 (file : string) (base : pyclass) :
  exists C, Config file base = Ok C /\
    class_getattr C "NUM_EPOCHS" = Ok (VInt 500).
Proof.
  destruct (Config_total file base) as (name & _ & ->).
  eexists. split; [done|]. done.
Qed.

(** C4: the configuration has [DATA_AUGMENTATION] equal to the boolean
    true, for every defining path and every base class. *)
Theorem DATA_AUGMENTATION_is_true (file : string) (base : pyclass) :
  exists C, Config file base = Ok C /\
    class_getattr C "DATA_AUGMENTATION" = Ok (VBool true).
Proof.
  destruct (Config_total file base) as (name & _ & ->).
  eexists. split; [done|]. done.
Qed.

(** What the class statement leaves in the class's own namespace: the
    three fields of the file, and the interpreter's [__module__] and
    [__doc__]. *)
Lemma class_statement_namespace (file modname : string) (base : pyclass) :
  exists d, class_statement file modname base = Ok (Class d base) /\
    dom d = ({[ "EXP_NAME"; "NUM_EPOCHS"; "DATA_AUGMENTATION";
                "__module__"; "__doc__" ]} : gset string).
Proof.
  destruct (exp_name_of_spec file) as (name & _ & E & _).
  eexists. split; [by apply class_statement_eq|].
  unfold class_prelude.
  rewrite dom_insert_L, dom_delete_L, !dom_insert_L, dom_empty_L.
  set_solver.
Qed.

(** [__doc__] is the interpreter's: the class has no docstring, so it reads
    [None] there even when the base class has one. *)
Example own_doc_is_not_inherited :
  (c ← class_statement "old/EndingsSeg_12g90g270g_125mm_DAugAll.py" "m"
         (Class {[ "__doc__" := VStr "Base configuration" ]} Object);
   class_getattr c "__doc__")
  = Ok VNone.
Proof. reflexivity. Qed.

(** C5: a configuration field (a name that does not begin with two
    underscores, which are the interpreter's) other than [EXP_NAME],
    [NUM_EPOCHS] and [DATA_AUGMENTATION] reads the same on the class this
    file builds as on the base configuration: the same value when the base
    has the field, the same [AttributeError] when it has not. *)
Theorem other_fields_inherited
  (file modname : string) (base : pyclass) (k : string) :
  reserved k = false ->
  k ≠ "EXP_NAME" -> k ≠ "NUM_EPOCHS" -> k ≠ "DATA_AUGMENTATION" ->
  exists C, class_statement file modname base = Ok C /\
    class_getattr C k = class_getattr base k.
Proof.
  intros Hk H1 H2 H3.
  destruct (exp_name_of_spec file) as (name & _ & E & _).
  eexists. split; [by apply class_statement_eq|].
  unfold class_getattr. cbn [class_lookup].
  rewrite (lookup_past_reserved _ _ _ Hk).
  by rewrite !lookup_insert_ne, lookup_empty.
Qed.

Lemma other_fields_inherited_witness :
  exists C,
    class_statement "experiments/EndingsSeg_12g90g270g_125mm_DAugAll.py"
      "tractseg.experiments.pretrained_models.old.EndingsSeg_12g90g270g_125mm_DAugAll"
      (Class {[ "NUM_EPOCHS" := VInt 250; "LABELS_TYPE" := VStr "int";
                "__doc__" := VStr "Base configuration" ]}
         (Class {[ "LEARNING_RATE" := VRef 1 ]} Object)) = Ok C /\
    class_getattr C "LEARNING_RATE" =
      class_getattr
        (Class {[ "NUM_EPOCHS" := VInt 250; "LABELS_TYPE" := VStr "int";
                  "__doc__" := VStr "Base configuration" ]}
           (Class {[ "LEARNING_RATE" := VRef 1 ]} Object)) "LEARNING_RATE".
Proof.
  apply (other_fields_inherited
           "experiments/EndingsSeg_12g90g270g_125mm_DAugAll.py"
           "tractseg.experiments.pretrained_models.old.EndingsSeg_12g90g270g_125mm_DAugAll"
           (Class {[ "NUM_EPOCHS" := VInt 250; "LABELS_TYPE" := VStr "int";
                     "__doc__" := VStr "Base configuration" ]}
              (Class {[ "LEARNING_RATE" := VRef 1 ]} Object))
           "LEARNING_RATE"); [reflexivity | discriminate..].
Defined.

(** C6: the class this file builds on the base configuration binds, among
    configuration keys (names that do not begin with two underscores),
    exactly [EXP_NAME], [NUM_EPOCHS] and [DATA_AUGMENTATION]: each of the
    three is in the class's own namespace, and no other configuration key
    is. *)
Theorem overridden_keys_exact (file modname : string) (base : pyclass) :
  exists d, class_statement file modname base = Ok (Class d base) /\
    forall k, reserved k = false ->
      (is_Some (d !! k) <->
       k ∈ ({[ "EXP_NAME"; "NUM_EPOCHS"; "DATA_AUGMENTATION" ]} : gset string)).
Proof.
  destruct (exp_name_of_spec file) as (name & _ & E & _).
  eexists. split; [by apply class_statement_eq|].
  intros k Hk. rewrite (lookup_past_reserved _ _ _ Hk).
  rewrite <- elem_of_dom, !dom_insert_L, dom_empty_L. set_solver.
Qed.

(** C7: building the configuration never raises.  For every defining path
    the split of the base name has at least one piece, so index 0 is in
    range and the derived name exists; and for every base class the class
    statement yields a class. *)
Theorem Config_never_raises (file : string) :
  (1 <= length (PyStr.split dot (PosixPath.basename file)))%nat /\
  (exists name, exp_name_of file = Ok name) /\
  (forall base, exists C, Config file base = Ok C).
Proof.
  split; [rewrite PyStrFacts.split_length; lia|].
  split.
  - destruct (exp_name_of_spec file) as (name & _ & E & _). by exists name.
  - intros base. destruct (Config_total file base) as (name & _ & E).
    eauto.
Qed.

(** ** The derived name against extension stripping *)

Section Extension.
Import PyStr PyStrFacts PosixPath.

#[local] Arguments String.append !_ _ / : simpl nomatch.

Lemma strip_extension_no_dot (s : string) :
  has_char dot s = false -> strip_extension s = s.
Proof. intros Hs. unfold strip_extension. by rewrite (rfind_absent _ _ Hs). Qed.

Lemma strip_extension_last (d n : string) :
  has_char dot n = false -> strip_extension (d +:+ String dot n) = d.
Proof.
  intros Hn. unfold strip_extension, slice_to.
  rewrite (rfind_last _ _ _ Hn).
  destruct (Z.ltb_spec (Z.of_nat (String.length d)) 0); [lia|].
  rewrite clamp_inside; [apply take_app|].
  rewrite length_app. lia.
Qed.

Lemma app_cons_neq (c : ascii) (a b : string) : a ≠ a +:+ String c b.
Proof.
  intros E. apply (f_equal String.length) in E.
  rewrite length_app in E. simpl in E. lia.
Qed.

(** With the base name cut at its first dot, stripping the extension
    gives the front part exactly when no second dot follows. *)
Lemma first_dot_vs_last_dot (name rest : string) :
  has_char dot name = false ->
  (rest = "" \/ exists r, rest = String dot r) ->
  name = strip_extension (name +:+ rest) <->
  (count_char dot (name +:+ rest) <= 1)%nat.
Proof.
  intros Hname [->|[r ->]].
  - rewrite app_nil_r, (strip_extension_no_dot _ Hname).
    apply has_char_count in Hname. rewrite Hname. split; [lia | done].
  - rewrite count_char_app. apply has_char_count in Hname as Hc.
    rewrite Hc. simpl.
    destruct (rfind_spec dot r) as [[Hr _]|(d & n & -> & Hn & _)].
    + rewrite (strip_extension_last _ _ Hr).
      apply has_char_count in Hr. rewrite Hr. split; [lia | done].
    + replace (name +:+ String dot (d +:+ String dot n))
        with ((name +:+ String dot d) +:+ String dot n)
        by apply app_assoc.
      rewrite (strip_extension_last _ _ Hn).
      rewrite count_char_app. simpl. split.
      * intros E. by apply app_cons_neq in E.
      * lia.
Qed.

End Extension.

Example exp_name_of_repo_path :
  exp_name_of
    "tractseg/experiments/pretrained_models/old/EndingsSeg_12g90g270g_125mm_DAugAll.py"
  = Ok "EndingsSeg_12g90g270g_125mm_DAugAll".
Proof. reflexivity. Qed.

Example exp_name_of_compiled :
  exp_name_of "old/EndingsSeg_12g90g270g_125mm_DAugAll.pyc"
  = Ok "EndingsSeg_12g90g270g_125mm_DAugAll".
Proof. reflexivity. Qed.

Example exp_name_of_trailing_slash : exp_name_of "a.b/" = Ok "".
Proof. reflexivity. Qed.

Example split_keeps_empty_pieces :
  PyStr.split dot ".hidden..py." = [""; "hidden"; ""; "py"; ""].
Proof. reflexivity. Qed.

(** C2, as stated, fails: for a base name with two dots the derived name
    stops at the first dot, while stripping the extension stops at the
    last one. *)
Lemma exp_name_not_extension_stripped :
  exp_name_of "pkg/model.v2.py" = Ok "model" /\
  strip_extension (PosixPath.basename "pkg/model.v2.py") = "model.v2" /\
  exp_name_of "pkg/model.v2.py"
    ≠ Ok (strip_extension (PosixPath.basename "pkg/model.v2.py")).
Proof. split; [reflexivity|]. split; [reflexivity | discriminate]. Qed.

(** C2, amended: for every defining path the derivation returns the part of
    the base name in front of its first dot (the whole base name when it
    has no dot); that is the base name with its extension stripped exactly
    when the base name holds at most one dot. *)
Theorem exp_name_is_first_segment (file : string) :
  exists name rest,
    exp_name_of file = Ok name /\
    PosixPath.basename file = name +:+ rest /\
    PyStr.has_char dot name = false /\
    (rest = "" \/ exists r, rest = String dot r) /\
    (name = strip_extension (PosixPath.basename file) <->
     (PyStr.count_char dot (PosixPath.basename file) <= 1)%nat).
Proof.
  destruct (exp_name_of_spec file) as (name & rest & E & Hb & Hname & Hrest).
  exists name, rest. repeat split; try done.
  - rewrite Hb. by apply first_dot_vs_last_dot.
  - rewrite Hb. by apply first_dot_vs_last_dot.
Qed.

(** C9: when the base name of the defining path begins with a dot, the
    derived name is the empty string. *)
Theorem hidden_file_gives_empty_name (file rest : string) :
  PosixPath.basename file = String dot rest ->
  exp_name_of file = Ok "".
Proof.
  intros Hb. unfold exp_name_of. rewrite Hb.
  change (String dot rest) with ("" +:+ String dot rest).
  rewrite PyStrFacts.split_first by done.
  apply getitem_head.
Qed.

Lemma hidden_file_gives_empty_name_witness :
  PosixPath.basename "/home/u/.hidden.py" = String dot "hidden.py" /\
  exp_name_of "/home/u/.hidden.py" = Ok "".
Proof.
  split; [reflexivity|].
  apply (hidden_file_gives_empty_name "/home/u/.hidden.py" "hidden.py").
  reflexivity.
Defined.

(** C10: the derived [EXP_NAME] depends on the defining path alone: for one
    path, configurations built over any two base classes carry the same
    name, the one [exp_name_of] computes from the path; and that name holds
    neither a dot nor a path separator. *)
Theorem EXP_NAME_depends_on_path_only (file : string) (base1 base2 : pyclass) :
  exists name C1 C2,
    exp_name_of file = Ok name /\
    Config file base1 = Ok C1 /\ Config file base2 = Ok C2 /\
    class_getattr C1 "EXP_NAME" = Ok (VStr name) /\
    class_getattr C2 "EXP_NAME" = Ok (VStr name) /\
    PyStr.has_char dot name = false /\
    PyStr.has_char PosixPath.sep name = false.
Proof.
  destruct (exp_name_of_spec file) as (name & rest & E & Hb & Hname & _).
  exists name. do 2 eexists.
  split; [exact E|].
  split; [by apply Config_eq|]. split; [by apply Config_eq|].
  split; [done|]. split; [done|]. split; [exact Hname|].
  destruct (basename_spec file) as [Hsep _].
  rewrite Hb, PyStrFacts.has_char_app in Hsep.
  by destruct (PyStr.has_char PosixPath.sep name).
Qed.

(** ** The life of the configuration *)

Section Lifecycle.
Variable file : string.

Lemma initial_unassigned : unassigned initial.
Proof. unfold unassigned. simpl. by repeat constructor. Qed.

Lemma step_unassigned (s s' : state) :
  step file s s' -> unassigned s -> unassigned s'.
Proof.
  unfold unassigned.
  intros [d d' E|d d' E|d d' E]; simpl; intros Hs.
  - unfold stmt_EXP_NAME in E. destruct (exp_name_of file); [|done].
    injection E as <-.
    inversion_clear Hs as [|? ? _ Hs']. inversion_clear Hs' as [|? ? H1 Hs].
    inversion_clear Hs as [|? ? H2 _].
    repeat constructor; by rewrite lookup_insert_ne.
  - injection E as <-.
    inversion_clear Hs as [|? ? _ Hs']. inversion_clear Hs' as [|? ? H1 _].
    repeat constructor; by rewrite lookup_insert_ne.
  - constructor.
Qed.

(** A statement only binds the name it assigns, and that name was
    unbound: what the namespace already holds is kept. *)
Lemma step_keeps_bound (s s' : state) (k : string) (v : value) :
  step file s s' -> unassigned s ->
  ns s !! k = Some v -> ns s' !! k = Some v.
Proof.
  unfold unassigned.
  intros [d d' E|d d' E|d d' E]; simpl; intros Hs Hk.
  - unfold stmt_EXP_NAME in E. destruct (exp_name_of file); [|done].
    injection E as <-. inversion_clear Hs as [|? ? H0 _].
    rewrite lookup_insert_ne; [done | congruence].
  - injection E as <-. inversion_clear Hs as [|? ? H0 _].
    rewrite lookup_insert_ne; [done | congruence].
  - injection E as <-. inversion_clear Hs as [|? ? H0 _].
    rewrite lookup_insert_ne; [done | congruence].
Qed.

Lemma reachable_unassigned (s : state) :
  rtc (step file) initial s -> unassigned s.
Proof.
  intros Hr. pose proof initial_unassigned as Hi.
  induction Hr as [s|s s1 s' H1 Hs IH]; [done|].
  apply IH. by eapply step_unassigned.
Qed.

(** X8: while the class body runs, a field once bound keeps its value: no
    statement of the file assigns a name an earlier statement assigned. *)
Lemma bound_fields_stay (s s' : state) (k : string) (v : value) :
  rtc (step file) initial s -> rtc (step file) s s' ->
  ns s !! k = Some v -> ns s' !! k = Some v.
Proof.
  intros Hr Hs. apply reachable_unassigned in Hr.
  induction Hs as [s|s s1 s' H1 Hs IH]; [done|].
  intros Hk. apply IH.
  - by eapply step_unassigned.
  - by eapply step_keeps_bound.
Qed.

(** Running the three statements from the empty namespace ends in
    [Built] with the namespace [class_body] computes. *)
Lemma class_body_run (d : gmap string value) :
  class_body file = Ok d -> rtc (step file) initial (State Built d).
Proof.
  unfold class_body. intros E.
  destruct (stmt_EXP_NAME file ∅) as [d1|] eqn:E1; [|done].
  simpl in E.
  eapply rtc_l; [by apply step_EXP_NAME|].
  eapply rtc_l; [by apply step_NUM_EPOCHS|].
  eapply rtc_l; [by apply step_DATA_AUGMENTATION|].
  apply rtc_refl.
Qed.

End Lifecycle.

(** ** More on the derived name *)

Section NameDerivation.
Import PyStr PyStrFacts PosixPath.

#[local] Arguments String.append !_ _ / : simpl nomatch.

(** A directory put in front of a path does not change its base name,
    whether or not the path has directories of its own. *)
Lemma basename_prefix (d p : string) :
  basename (d +:+ String sep p) = basename p.
Proof.
  destruct (rfind_spec sep p) as [[Hno _]|(d' & n & -> & Hn & _)].
  - by rewrite (basename_in_dir _ _ Hno), (basename_bare _ Hno).
  - replace (d +:+ String sep (d' +:+ String sep n))
      with ((d +:+ String sep d') +:+ String sep n) by apply app_assoc.
    by rewrite !(basename_in_dir _ _ Hn).
Qed.

Lemma basename_empty_iff (p : string) :
  basename p = "" <-> p = "" \/ exists d, p = d +:+ String sep "".
Proof.
  split.
  - intros E. destruct (basename_spec p) as [_ [Hp|[d Hp]]]; rewrite E in Hp.
    + by left.
    + right. by exists d.
  - intros [->|[d ->]]; [done|]. by apply basename_in_dir.
Qed.

(** The first piece of a split does not depend on what follows the first
    separator. *)
Lemma split_head_app (c : ascii) (n e : string) :
  exists h t t', split c n = h :: t /\ split c (n +:+ String c e) = h :: t'.
Proof.
  destruct (split_spec c n) as (h & t & E & Hh & [[-> ->]|(r & -> & ->)]).
  - exists h, [], (split c e). split; [done|]. by apply split_first.
  - exists h, (split c r), (split c (r +:+ String c e)). split; [done|].
    replace ((h +:+ String c r) +:+ String c e)
      with (h +:+ String c (r +:+ String c e)) by (symmetry; apply app_assoc).
    by apply split_first.
Qed.

Lemma split_no_sep (c : ascii) (s : string) :
  Forall (fun piece => has_char c piece = false) (split c s).
Proof.
  induction s as [|a s IH]; simpl; [by repeat constructor|].
  destruct (Ascii.eqb_spec a c) as [->|Hne].
  - by constructor.
  - destruct (split c s) as [|h t]; [by repeat constructor; simpl;
      destruct (Ascii.eqb_spec a c)|].
    inversion_clear IH as [|? ? Hh Ht]. constructor; [|done].
    simpl. by destruct (Ascii.eqb_spec a c).
Qed.

End NameDerivation.

(** X1: the naming convention holds for every well-named file: loaded from
    [dir/n.ext], where [n] holds neither a dot nor a slash and [ext] holds
    no slash, the configuration has [EXP_NAME] equal to [n]. *)
Theorem EXP_NAME_follows_file_name (dir n ext : string) (base : pyclass) :
  PyStr.has_char PosixPath.sep n = false ->
  PyStr.has_char dot n = false ->
  PyStr.has_char PosixPath.sep ext = false ->
  exists C,
    Config (dir +:+ String PosixPath.sep (n +:+ String dot ext)) base = Ok C /\
    class_getattr C "EXP_NAME" = Ok (VStr n).
Proof.
  intros Hn Hdot Hext.
  eexists. split; [by apply Config_eq, exp_name_of_app|]. done.
Qed.

Lemma EXP_NAME_follows_file_name_witness :
  exists C,
    Config "tractseg/experiments/custom/My_Custom_Experiment.py"
      (Class {[ "EXP_NAME" := VStr "EndingsSeg" ]} Object) = Ok C /\
    class_getattr C "EXP_NAME" = Ok (VStr "My_Custom_Experiment").
Proof.
  apply (EXP_NAME_follows_file_name
           "tractseg/experiments/custom" "My_Custom_Experiment" "py");
    reflexivity.
Defined.

(** X2: the derived name does not depend on where the file lies: putting
    any directory in front of any path leaves the name unchanged. *)
Theorem exp_name_ignores_directory (dir path : string) :
  exp_name_of (dir +:+ String PosixPath.sep path) = exp_name_of path.
Proof. unfold exp_name_of. by rewrite basename_prefix. Qed.

(** X3: the derived name does not depend on the extension: for a base name
    [n] without a slash, [dir/n.e1] and [dir/n.e2] give the same name for
    any two slash-free extensions (so [.py] and [.pyc] agree). *)
Theorem exp_name_ignores_extension (dir n e1 e2 : string) :
  PyStr.has_char PosixPath.sep n = false ->
  PyStr.has_char PosixPath.sep e1 = false ->
  PyStr.has_char PosixPath.sep e2 = false ->
  exp_name_of (dir +:+ String PosixPath.sep (n +:+ String dot e1)) =
  exp_name_of (dir +:+ String PosixPath.sep (n +:+ String dot e2)).
Proof.
  intros Hn H1 H2. unfold exp_name_of.
  rewrite !basename_in_dir
    by (rewrite PyStrFacts.has_char_app, Hn; simpl; assumption).
  destruct (split_head_app dot n e1) as (h & t & t1 & E & ->).
  destruct (split_head_app dot n e2) as (h' & t' & t2 & E' & ->).
  rewrite E in E'. injection E' as <- _.
  by rewrite !getitem_head.
Qed.

Lemma exp_name_ignores_extension_witness :
  exp_name_of "old/EndingsSeg.v2.py" = exp_name_of "old/EndingsSeg.v2.pyc".
Proof.
  apply (exp_name_ignores_extension "old" "EndingsSeg.v2" "py" "pyc");
    reflexivity.
Defined.

(** X4: the derived name is empty exactly when the path is empty, ends in a
    slash, or has a base name that begins with a dot. *)
Theorem exp_name_empty_iff (file : string) :
  exp_name_of file = Ok "" <->
  file = "" \/
  (exists d, file = d +:+ String PosixPath.sep "") \/
  (exists r, PosixPath.basename file = String dot r).
Proof.
  split.
  - intros E.
    destruct (exp_name_of_spec file) as (name & rest & E' & Hb & _ & Hrest).
    rewrite E in E'. injection E' as <-.
    destruct Hrest as [->|[r ->]].
    + apply basename_empty_iff in Hb as [?|?]; auto.
    + right. right. by exists r.
  - intros H. unfold exp_name_of.
    assert (PosixPath.basename file = "" \/
            exists r, PosixPath.basename file = String dot r) as [->|[r ->]].
    { destruct H as [H|[H|H]]; [left | left | by right];
        apply basename_empty_iff; auto. }
    + done.
    + change (String dot r) with ("" +:+ String dot r).
      rewrite PyStrFacts.split_first by done. apply getitem_head.
Qed.

(** X5: deriving is idempotent: a derived name, taken as a path itself,
    derives to itself. *)
Theorem exp_name_idempotent (file name : string) :
  exp_name_of file = Ok name -> exp_name_of name = Ok name.
Proof.
  intros E.
  destruct (exp_name_of_spec file) as (name' & rest & E' & Hb & Hdot & _).
  rewrite E in E'. injection E' as <-.
  destruct (basename_spec file) as [Hsep _].
  rewrite Hb, PyStrFacts.has_char_app in Hsep.
  apply orb_false_elim in Hsep as [Hsep _].
  unfold exp_name_of.
  rewrite (basename_bare _ Hsep), (PyStrFacts.split_whole _ _ Hdot).
  apply getitem_head.
Qed.

Lemma exp_name_idempotent_witness :
  exp_name_of "pkg/model.v2.py" = Ok "model" /\
  exp_name_of "model" = Ok "model".
Proof.
  split; [reflexivity|].
  apply (exp_name_idempotent "pkg/model.v2.py" "model"). reflexivity.
Defined.

(** X6: [basename] is idempotent: a base name is its own base name. *)
Theorem basename_idempotent (p : string) :
  PosixPath.basename (PosixPath.basename p) = PosixPath.basename p.
Proof.
  destruct (basename_spec p) as [Hsep _]. by apply basename_bare.
Qed.

(** X7: splitting on a separator yields one piece more than the string has
    separators, and no piece holds the separator. *)
Theorem split_pieces (c : ascii) (s : string) :
  length (PyStr.split c s) = S (PyStr.count_char c s) /\
  Forall (fun piece => PyStr.has_char c piece = false) (PyStr.split c s).
Proof. split; [apply PyStrFacts.split_length | apply split_no_sep]. Qed.

Lemma bound_fields_stay_witness :
  ns (State Built
        (<["DATA_AUGMENTATION" := VBool true]>
           (<["NUM_EPOCHS" := VInt 500]>
              (<["EXP_NAME" := VStr "m"]> ∅)))) !! "EXP_NAME"
  = Some (VStr "m").
Proof.
  apply (bound_fields_stay "exp/m.py"
           (State AtNUM_EPOCHS (<["EXP_NAME" := VStr "m"]> ∅))).
  - eapply rtc_l; [by apply step_EXP_NAME | apply rtc_refl].
  - eapply rtc_l; [by apply step_NUM_EPOCHS|].
    eapply rtc_l; [by apply step_DATA_AUGMENTATION | apply rtc_refl].
  - reflexivity.
Defined.
